(** * django_elasticsearch.models: signal handlers that mirror model
      life-cycle events into the search index

    A shallow embedding of [src/django_elasticsearch/models.py].

    The module is glue code: every interesting action is a call on a
    collaborator that lives outside the file ([requests.get], the
    [ElasticsearchManager] methods, [logger.error], [Model.save]).  The
    embedding therefore keeps the control flow of the source (guards,
    [try]/[except], the [for] loop) and records each call on a
    collaborator, together with its outcome, in a trace.  The outcome of a
    call is decided by the world the program runs in; it may depend on
    everything that happened before. *)

From Stdlib Require Import Strings.Ascii.
From stdpp Require Import base option list strings gmap.

Open Scope string_scope.
Open Scope list_scope.

(** ** Python values, classes, instances *)

(** The values a Django setting or an instance attribute holds here. *)
Inductive PyVal : Type :=
| PyNone
| PyBool (b : bool)
| PyInt (z : Z)
| PyStr (s : string).

(** Python's truth value testing ([bool(v)]). *)
Definition truthy (v : PyVal) : bool :=
  match v with
  | PyNone => false
  | PyBool b => b
  | PyInt z => negb (z =? 0)%Z
  | PyStr s => negb (String.eqb s "")
  end.

(** A class, given by its name and its method resolution order
    ([cls.__mro__], the class itself first). *)
Record PyClass : Type := {
  cls_name : string;
  cls_mro : list string;
}.

(** [str(cls)]; [cls_name] is the dotted name of the class. *)
Definition class_str (cls : PyClass) : string :=
  "<class '" +:+ cls_name cls +:+ "'>".

(** [issubclass(cls, base)]: [base] occurs in the MRO of [cls]. *)
Definition issubclass (cls : PyClass) (base : string) : bool :=
  bool_decide (base ∈ cls_mro cls).

(** A model instance: its class, what [str(instance)] gives, and its
    attribute dictionary. *)
Record Instance : Type := {
  inst_class : PyClass;
  inst_str : string;
  inst_dict : gmap string PyVal;
}.

(** [getattr(obj, name, default)] on a dictionary of attributes. *)
Definition getattr (d : gmap string PyVal) (name : string) (dflt : PyVal) : PyVal :=
  default dflt (d !! name).

(** The sender of [post_migrate]: an application configuration, whose
    [get_models()] lists the models of the application. *)
Record AppConfig : Type := {
  app_label : string;
  get_models : list PyClass;
}.

(** ** Exceptions *)

Inductive ExcClass : Type :=
| RequestsConnectionError      (* requests.exceptions.ConnectionError *)
| RequestsTimeout              (* requests.exceptions.Timeout *)
| RequestsConnectTimeout       (* subclass of both of the above *)
| RequestsReadTimeout          (* subclass of Timeout *)
| ElasticConnectionError       (* elasticsearch.exceptions.ConnectionError *)
| ElasticConnectionTimeout     (* subclass of ElasticConnectionError *)
| ValueError
| AttributeError
| IndexError
| OtherException (name : string).

#[global] Instance ExcClass_eq_dec : EqDecision ExcClass.
Proof. solve_decision. Defined.

(** The direct bases of an exception class, as far as the handlers of this
    module can tell them apart. *)
Definition exc_bases (c : ExcClass) : list ExcClass :=
  match c with
  | RequestsConnectTimeout => [RequestsConnectionError; RequestsTimeout]
  | RequestsReadTimeout => [RequestsTimeout]
  | ElasticConnectionTimeout => [ElasticConnectionError]
  | _ => []
  end.

Definition exc_isinstance (c target : ExcClass) : bool :=
  bool_decide (c = target) || bool_decide (target ∈ exc_bases c).

(** A raised exception: its class and [str(e)]. *)
Record PyExc : Type := {
  exc_class : ExcClass;
  exc_str : string;
}.

(** The tuple of the three [except] clauses of the module. *)
Definition connection_errors : list ExcClass :=
  [RequestsConnectionError; RequestsTimeout; ElasticConnectionError].

(** Whether [except (requests.exceptions.ConnectionError,
    requests.exceptions.Timeout, ElasticConnectionError)] matches [e]. *)
Definition caught (e : PyExc) : bool :=
  existsb (exc_isinstance (exc_class e)) connection_errors.

(** ** Calls on collaborators, events, traces *)

Inductive Call : Type :=
| RequestsGet (url timeout : PyVal)    (* requests.get(url, timeout=timeout) *)
| EsDoIndex (instance : Instance)      (* instance.es.do_index() *)
| EsDelete (instance : Instance)       (* instance.es.delete() *)
| EsCreateIndex (model : PyClass)      (* model.es.create_index() *)
| EsReindexAll (model : PyClass)       (* model.es.reindex_all() *)
| ModelSave (instance : Instance) (args : list PyVal) (kwargs : gmap string PyVal)
                                       (* super(EsIndexable, self).save with the same arguments *)
| ModelDelete (instance : Instance) (args : list PyVal) (kwargs : gmap string PyVal)
                                       (* super(EsIndexable, self).delete with the same arguments *)
| ElasticsearchManagerNew (cls : PyClass).
                                       (* ElasticsearchManager(cls) *)

Inductive Outcome : Type :=
| Returned
| Raised (e : PyExc).

Inductive Event : Type :=
| EvCall (c : Call) (o : Outcome)      (* a call and how it ended *)
| EvLogError (msg : string)            (* logger.error(msg) *)
| EvSetManager (cls : PyClass).        (* cls.es = <the manager just built> *)

Abbreviation Trace := (list Event).

(** What the code runs in: the Django settings, the Django version, and
    the world, which decides how a call ends given all that happened so
    far. *)
Record Env : Type := {
  settings : gmap string PyVal;
  django_version : string;
  world : Trace → Call → Outcome;
}.

(** ** The monad of the embedding

    A computation reads the environment and the history, and gives the
    events it added together with its result or the exception it
    raised. *)

Inductive Res (A : Type) : Type :=
| Ok (a : A)
| Exc (e : PyExc).
Arguments Ok {A} a.
Arguments Exc {A} e.

Definition M (A : Type) : Type := Env → Trace → Trace * Res A.

Definition ret {A} (a : A) : M A := λ _ _, ([], Ok a).

Definition raise {A} (e : PyExc) : M A := λ _ _, ([], Exc e).

Definition bind {A B} (m : M A) (k : A → M B) : M B :=
  λ env h,
    match m env h with
    | (t1, Ok a) =>
        match k a env (h ++ t1) with
        | (t2, r) => (t1 ++ t2, r)
        end
    | (t1, Exc e) => (t1, Exc e)
    end.

(** [try: body / except ...: handler(e)]; the handler decides itself
    whether the exception is one of its own (and re-raises otherwise). *)
Definition try_except {A} (body : M A) (handler : PyExc → M A) : M A :=
  λ env h,
    match body env h with
    | (t1, Ok a) => (t1, Ok a)
    | (t1, Exc e) =>
        match handler e env (h ++ t1) with
        | (t2, r) => (t1 ++ t2, r)
        end
    end.

Declare Scope py_scope.
Delimit Scope py_scope with py.
Notation "x <- m ;; k" := (bind m (λ x, k))
  (at level 100, m at next level, right associativity) : py_scope.
Notation "m ;; k" := (bind m (λ _, k))
  (at level 100, right associativity) : py_scope.
Open Scope py_scope.

(** A call on a collaborator: the world decides the outcome, the event is
    recorded, an exception propagates. *)
Definition call (c : Call) : M unit :=
  λ env h,
    match world env h c with
    | Returned => ([EvCall c Returned], Ok tt)
    | Raised e => ([EvCall c (Raised e)], Exc e)
    end.

Definition logger_error (msg : string) : M unit :=
  λ _ _, ([EvLogError msg], Ok tt).

(** [settings.NAME]: Django raises [AttributeError] for a missing setting. *)
Definition missing_setting (name : string) : PyExc :=
  {| exc_class := AttributeError;
     exc_str := "'Settings' object has no attribute '" +:+ name +:+ "'" |}.

Definition settings_attr (name : string) : M PyVal :=
  λ env h,
    match settings env !! name with
    | Some v => ([], Ok v)
    | None => ([], Exc (missing_setting name))
    end.

(** [getattr(settings, NAME, default)]. *)
Definition settings_getattr (name : string) (dflt : PyVal) : M PyVal :=
  λ env h, ([], Ok (getattr (settings env) name dflt)).

(** [django.get_version()]. *)
Definition get_version : M string :=
  λ env _, ([], Ok (django_version env)).

(** [s[i]] on a string: [IndexError] past the end. *)
Definition str_getitem (s : string) (i : nat) : M Ascii.ascii :=
  match String.get i s with
  | Some c => ret c
  | None => raise {| exc_class := IndexError;
                     exc_str := "string index out of range" |}
  end.

(** The value of a decimal digit, if the character is one. *)
Definition digit_value (c : Ascii.ascii) : option Z :=
  let n := Z.of_N (Ascii.N_of_ascii c) in
  if (48 <=? n)%Z && (n <=? 57)%Z then Some (n - 48)%Z else None.

(** [int(c)] on a string of one character: [ValueError] unless the
    character is a decimal digit. *)
Definition py_int (c : Ascii.ascii) : M Z :=
  match digit_value c with
  | Some n => ret n
  | None => raise {| exc_class := ValueError;
                     exc_str := "invalid literal for int() with base 10: '"
                                +:+ String c "" +:+ "'" |}
  end.

(** [for x in xs: body(x)]. *)
Fixpoint for_each {A} (xs : list A) (body : A → M unit) : M unit :=
  match xs with
  | [] => ret tt
  | x :: xs' => body x ;; for_each xs' body
  end.

(** ** The module *)

Module EsIndexable.

Definition name : string := "EsIndexable".

Definition no_db_message (self : Instance) : string :=
  "The instance " +:+ inst_str self +:+ " of " +:+ class_str (inst_class self)
  +:+ " have been deserialized
            from an elasticsearch source and thus
            it's not safe to save it.".

Definition _raise_no_db_operation (self : Instance) : M unit :=
  if truthy (getattr (inst_dict self) "_is_es_deserialized" (PyBool false))
  then raise {| exc_class := ValueError; exc_str := no_db_message self |}
  else ret tt.

Definition save (self : Instance)
    (args : list PyVal) (kwargs : gmap string PyVal) : M unit :=
  _raise_no_db_operation self ;;
  call (ModelSave self args kwargs).

Definition delete (self : Instance)
    (args : list PyVal) (kwargs : gmap string PyVal) : M unit :=
  _raise_no_db_operation self ;;
  call (ModelDelete self args kwargs).

End EsIndexable.

(** The assignment [cls.es = ...] of a manager that has been built. *)
Definition set_manager (cls : PyClass) : M unit :=
  λ _ _, ([EvSetManager cls], Ok tt).

(** The manager is built by a call on [ElasticsearchManager], which can
    raise like any other call; no [try] surrounds it. *)
Definition add_es_manager (sender : PyClass) : M unit :=
  if issubclass sender EsIndexable.name
  then call (ElasticsearchManagerNew sender) ;; set_manager sender
  else ret tt.

(** [requests.get(settings.ELASTICSEARCH_URL,
                  timeout=getattr(settings, 'ELASTICSEARCH_MAX_TIMEOUT', None))] *)
Definition probe : M unit :=
  url <- settings_attr "ELASTICSEARCH_URL" ;;
  timeout <- settings_getattr "ELASTICSEARCH_MAX_TIMEOUT" PyNone ;;
  call (RequestsGet url timeout).

(** ["ElasticSearch is do not responding, %s" % e] *)
Definition not_responding (e : PyExc) : string :=
  "ElasticSearch is do not responding, " +:+ exc_str e.

(** The three [except] clauses of the module are the same: an exception of
    one of the listed classes is logged, any other goes on. *)
Definition log_not_responding (e : PyExc) : M unit :=
  if caught e
  then logger_error (not_responding e)
  else raise e.

(** The handlers of [post_save] and [post_delete]; the keyword arguments
    the signal adds ([created], [raw], [using], ...) are not read. *)
Definition es_save_callback (sender : PyClass) (instance : Instance) : M unit :=
  if negb (issubclass sender EsIndexable.name) then ret tt
  else
    try_except
      (probe ;;
       call (EsDoIndex instance))
      log_not_responding.

Definition es_delete_callback (sender : PyClass) (instance : Instance) : M unit :=
  if negb (issubclass sender EsIndexable.name) then ret tt
  else
    try_except
      (probe ;;
       call (EsDelete instance))
      log_not_responding.

(** The body of the [for] loop of [es_syncdb_callback]. *)
Definition sync_model (model : PyClass) : M unit :=
  if issubclass model EsIndexable.name then
    try_except
      (probe ;;
       call (EsCreateIndex model) ;;
       call (EsReindexAll model))
      log_not_responding
  else ret tt.

(** [created_models] is [None] when the caller leaves the keyword out; the
    parameter then takes its default, the empty list.  (The parameter
    [app] of the source is never read.) *)
Definition es_syncdb_callback (sender : AppConfig)
    (created_models : option (list PyClass)) : M unit :=
  version <- get_version ;;
  c <- str_getitem version 2 ;;
  n <- py_int c ;;
  let models :=
    if (6 <? n)%Z then get_models sender
    else default [] created_models in
  for_each models sync_model.

(** ** Signals and the module-level wiring *)

Inductive Signal : Type :=
| class_prepared
| post_save
| post_delete
| post_migrate.   (* [post_syncdb] under that name for Django <= 1.6 *)

#[global] Instance Signal_eq_dec : EqDecision Signal.
Proof. solve_decision. Defined.

(** The functions of this module that are connected to signals. *)
Inductive Receiver : Type :=
| recv_add_es_manager
| recv_es_save_callback
| recv_es_delete_callback
| recv_es_syncdb_callback.

#[global] Instance Receiver_eq_dec : EqDecision Receiver.
Proof. solve_decision. Defined.

Abbreviation Registry := (list (Signal * Receiver)).

(** [signal.connect(receiver)]. *)
Definition connect (sig : Signal) (r : Receiver) (reg : Registry) : Registry :=
  reg ++ [(sig, r)].

(** The statements executed when the module is imported: line 70 and
    lines 110-115. *)
Definition module_import (st : gmap string PyVal) : Registry :=
  let reg := connect class_prepared recv_add_es_manager [] in
  if truthy (getattr st "ELASTICSEARCH_AUTO_INDEX" (PyBool false)) then
    let reg := connect post_save recv_es_save_callback reg in
    let reg := connect post_delete recv_es_delete_callback reg in
    connect post_migrate recv_es_syncdb_callback reg
  else reg.

(** What a signal is sent with. *)
Inductive Sent : Type :=
| SentClassPrepared (sender : PyClass)
| SentPostSave (sender : PyClass) (instance : Instance)
| SentPostDelete (sender : PyClass) (instance : Instance)
| SentPostMigrate (sender : AppConfig) (created_models : option (list PyClass)).

Definition signal_of (s : Sent) : Signal :=
  match s with
  | SentClassPrepared _ => class_prepared
  | SentPostSave _ _ => post_save
  | SentPostDelete _ _ => post_delete
  | SentPostMigrate _ _ => post_migrate
  end.

(** A receiver called with what a signal sends.  [module_import] connects
    each receiver to one signal; the arguments of the other signals are
    given to a receiver where its parameters accept them. *)
Definition type_error : PyExc :=
  {| exc_class := OtherException "TypeError";
     exc_str := "missing required positional argument" |}.

Definition run_receiver (r : Receiver) (s : Sent) : M unit :=
  match r, s with
  | recv_add_es_manager, SentClassPrepared sender => add_es_manager sender
  | recv_add_es_manager, SentPostSave sender _ => add_es_manager sender
  | recv_add_es_manager, SentPostDelete sender _ => add_es_manager sender
  | recv_es_save_callback, SentPostSave sender instance =>
      es_save_callback sender instance
  | recv_es_save_callback, SentPostDelete sender instance =>
      es_save_callback sender instance
  | recv_es_delete_callback, SentPostSave sender instance =>
      es_delete_callback sender instance
  | recv_es_delete_callback, SentPostDelete sender instance =>
      es_delete_callback sender instance
  | recv_es_syncdb_callback, SentPostMigrate sender created_models =>
      es_syncdb_callback sender created_models
  | _, _ => raise type_error
  end.

(** [Signal.send]: the receivers connected to the signal run in the order
    of their connection; an exception of a receiver propagates. *)
Definition send (reg : Registry) (s : Sent) : M unit :=
  for_each (filter (λ sr, sr.1 = signal_of s) reg)
           (λ sr, run_receiver sr.2 s).

(** ** Observing a run *)

(** The events a computation adds to the history, and how it ends. *)
Definition events {A} (m : M A) (env : Env) (h : Trace) : Trace := (m env h).1.
Definition result {A} (m : M A) (env : Env) (h : Trace) : Res A := (m env h).2.

(** The calls on collaborators in a trace, in order. *)
Definition calls (tr : Trace) : list Call :=
  omap (λ ev, match ev with EvCall c _ => Some c | _ => None end) tr.


Definition is_index_op (c : Call) : bool :=
  match c with
  | EsDoIndex _ | EsDelete _ | EsCreateIndex _ | EsReindexAll _ => true
  | _ => false
  end.

(** The operations on the search index in a trace. *)
Definition index_ops (tr : Trace) : list Call :=
  omap (λ ev, match ev with
              | EvCall c _ => if is_index_op c then Some c else None
              | _ => None
              end) tr.

(** The connectivity probes in a trace: URL and timeout of each. *)
Definition probes (tr : Trace) : list (PyVal * PyVal) :=
  omap (λ ev, match ev with
              | EvCall (RequestsGet url timeout) _ => Some (url, timeout)
              | _ => None
              end) tr.


(** The exceptions raised by calls. *)
Definition raised (tr : Trace) : list PyExc :=
  omap (λ ev, match ev with EvCall _ (Raised e) => Some e | _ => None end) tr.

(** ** Notions used in the statements *)

(** How a [try] block that raised [e] after the events [tr] ends. *)
Definition handled (tr : Trace) (e : PyExc) : Trace * Res unit :=
  if caught e then (tr ++ [EvLogError (not_responding e)], Ok tt)
  else (tr, Exc e).

(** What the [except] clause adds after an exception [e]. *)
Definition logged (e : PyExc) : Trace :=
  if caught e then [EvLogError (not_responding e)] else [].

(** A probe followed by one operation, inside the [try] block. *)
Definition probe_then (op : Call) (env : Env) (h : Trace) : Trace * Res unit :=
  match settings env !! "ELASTICSEARCH_URL" with
  | None => ([], Exc (missing_setting "ELASTICSEARCH_URL"))
  | Some url =>
      let get := RequestsGet url (getattr (settings env) "ELASTICSEARCH_MAX_TIMEOUT" PyNone) in
      match world env h get with
      | Raised e => handled [EvCall get (Raised e)] e
      | Returned =>
          match world env (h ++ [EvCall get Returned]) op with
          | Raised e => handled [EvCall get Returned; EvCall op (Raised e)] e
          | Returned => ([EvCall get Returned; EvCall op Returned], Ok tt)
          end
      end
  end.

(** The exceptions of [get_version()[2]] and of [int(...)]. *)
Definition index_error : PyExc :=
  {| exc_class := IndexError; exc_str := "string index out of range" |}.

Definition int_error (c : Ascii.ascii) : PyExc :=
  {| exc_class := ValueError;
     exc_str := "invalid literal for int() with base 10: '"
                +:+ String c "" +:+ "'" |}.

(** [getattr(self, '_is_es_deserialized', False)] as a truth value, and
    the exception of [_raise_no_db_operation]. *)
Definition is_es_deserialized (self : Instance) : bool :=
  truthy (getattr (inst_dict self) "_is_es_deserialized" (PyBool false)).

Definition no_db_error (self : Instance) : PyExc :=
  {| exc_class := ValueError; exc_str := EsIndexable.no_db_message self |}.

(** The test of line 110. *)
Definition auto_index (st : gmap string PyVal) : bool :=
  truthy (getattr st "ELASTICSEARCH_AUTO_INDEX" (PyBool false)).

(** The signals of the life cycle of a record or of the schema. *)
Definition lifecycle (sig : Signal) : Prop :=
  sig = post_save ∨ sig = post_delete ∨ sig = post_migrate.

(** A probe event carries the two settings as they are. *)
Definition probe_as_configured (env : Env) (ev : Event) : Prop :=
  match ev with
  | EvCall (RequestsGet url timeout) _ =>
      settings env !! "ELASTICSEARCH_URL" = Some url
      ∧ timeout = default PyNone (settings env !! "ELASTICSEARCH_MAX_TIMEOUT")
  | _ => True
  end.

(** The traces one turn of the loop can leave for the model [m]. *)
Inductive model_block (m : PyClass) : Trace → Prop :=
| block_skipped :
    issubclass m EsIndexable.name = false →
    model_block m []
| block_no_url :
    issubclass m EsIndexable.name = true →
    model_block m []
| block_probe_failed url timeout e :
    issubclass m EsIndexable.name = true →
    model_block m (EvCall (RequestsGet url timeout) (Raised e) :: logged e)
| block_create_failed url timeout e :
    issubclass m EsIndexable.name = true →
    model_block m (EvCall (RequestsGet url timeout) Returned
                   :: EvCall (EsCreateIndex m) (Raised e) :: logged e)
| block_reindex_failed url timeout e :
    issubclass m EsIndexable.name = true →
    model_block m (EvCall (RequestsGet url timeout) Returned
                   :: EvCall (EsCreateIndex m) Returned
                   :: EvCall (EsReindexAll m) (Raised e) :: logged e)
| block_done url timeout :
    issubclass m EsIndexable.name = true →
    model_block m [EvCall (RequestsGet url timeout) Returned;
                   EvCall (EsCreateIndex m) Returned;
                   EvCall (EsReindexAll m) Returned].







(** The messages logged, in order. *)
Definition log_errors (tr : Trace) : list string :=
  omap (λ ev, match ev with EvLogError msg => Some msg | _ => None end) tr.

(** The exceptions raised by calls that the [except] clause matches. *)
Definition caught_exceptions (tr : Trace) : list PyExc :=
  omap (λ ev, match ev with
              | EvCall _ (Raised e) => if caught e then Some e else None
              | _ => None
              end) tr.

(** The models on which the trace calls [create_index()], and those on
    which it calls [reindex_all()]. *)
Definition created_indexes (tr : Trace) : list PyClass :=
  omap (λ ev, match ev with EvCall (EsCreateIndex m) _ => Some m | _ => None end) tr.

Definition reindexed (tr : Trace) : list PyClass :=
  omap (λ ev, match ev with EvCall (EsReindexAll m) _ => Some m | _ => None end) tr.

(** The models of a list that are subclasses of [EsIndexable]. *)
Definition es_models (models : list PyClass) : list PyClass :=
  filter (λ m, issubclass m EsIndexable.name = true) models.

(** The models the migration handler loops over, once the version is read. *)
Definition selected_models (n : Z) (sender : AppConfig)
    (created_models : option (list PyClass)) : list PyClass :=
  if (6 <? n)%Z then get_models sender else default [] created_models.

(** The block of a model when the probe and both operations return. *)
Definition full_block (url timeout : PyVal) (m : PyClass) : Trace :=
  [EvCall (RequestsGet url timeout) Returned;
   EvCall (EsCreateIndex m) Returned;
   EvCall (EsReindexAll m) Returned].

(** Every operation on the index comes right after the call that lets it
    happen: [reindex_all] after a [create_index] of the same model that
    returned, any other operation after a probe that returned. *)
Definition each_op_follows_its_guard (tr : Trace) : Prop :=
  ∀ i c o,
    tr !! i = Some (EvCall c o) →
    is_index_op c = true →
    ∃ j, i = S j
         ∧ match c with
           | EsReindexAll m => tr !! j = Some (EvCall (EsCreateIndex m) Returned)
           | _ => ∃ url timeout,
                    tr !! j = Some (EvCall (RequestsGet url timeout) Returned)
           end.

(** The log of a trace mirrors the caught exceptions of its calls. *)
Definition log_mirrors_caught (tr : Trace) : Prop :=
  log_errors tr = not_responding <$> caught_exceptions tr.

(** ** Concrete inputs used to exercise the statements *)

Module Sample.

Definition url : PyVal := PyStr "http://localhost:9200".

Definition Article : PyClass :=
  {| cls_name := "blog.models.Article";
     cls_mro := ["Article"; "EsIndexable"; "Model"; "object"] |}.

Definition Comment : PyClass :=
  {| cls_name := "blog.models.Comment";
     cls_mro := ["Comment"; "EsIndexable"; "Model"; "object"] |}.

Definition Session : PyClass :=
  {| cls_name := "django.contrib.sessions.models.Session";
     cls_mro := ["Session"; "AbstractBaseSession"; "Model"; "object"] |}.

Definition article : Instance :=
  {| inst_class := Article; inst_str := "Article object (1)";
     inst_dict := {[ "id" := PyInt 1 ]} |}.

Definition from_es : Instance :=
  {| inst_class := Article; inst_str := "Article object (2)";
     inst_dict := {[ "id" := PyInt 2; "_is_es_deserialized" := PyBool true ]} |}.

Definition session : Instance :=
  {| inst_class := Session; inst_str := "Session object (abc)";
     inst_dict := ∅ |}.

Definition blog : AppConfig :=
  {| app_label := "blog"; get_models := [Article; Session; Comment] |}.

Definition timeout_exc : PyExc :=
  {| exc_class := RequestsTimeout; exc_str := "timed out" |}.


Definition request_exc : PyExc :=
  {| exc_class := OtherException "elasticsearch.exceptions.RequestError";
     exc_str := "index_already_exists_exception" |}.

(** A backend that answers every call. *)
Definition up : Env :=
  {| settings := {[ "ELASTICSEARCH_URL" := url ]};
     django_version := "1.10";
     world := λ _ _, Returned |}.


(** A backend that misses the first probe, answers the later ones, and
    rejects the creation of an index with an error that is not a
    connection error. *)
Definition flaky : Env :=
  {| settings := {[ "ELASTICSEARCH_URL" := url ]};
     django_version := "1.10";
     world := λ h c, match c with
                     | RequestsGet _ _ =>
                         match h with
                         | [] => Raised timeout_exc
                         | _ => Returned
                         end
                     | EsCreateIndex _ => Raised request_exc
                     | _ => Returned
                     end |}.

(** A backend that answers every call, under a Django that lists the
    models of the application. *)
Definition answering : Env :=
  {| settings := {[ "ELASTICSEARCH_URL" := url ]};
     django_version := "1.8";
     world := λ _ _, Returned |}.


(** No URL of the backend in the settings. *)
Definition unconfigured : Env :=
  {| settings := ∅;
     django_version := "1.8";
     world := λ _ _, Returned |}.

(** Versions that cannot be read. *)
Definition short_version : Env :=
  {| settings := {[ "ELASTICSEARCH_URL" := url ]};
     django_version := "2";
     world := λ _ _, Returned |}.

Definition odd_version : Env :=
  {| settings := {[ "ELASTICSEARCH_URL" := url ]};
     django_version := "10.0";
     world := λ _ _, Returned |}.

(** A backend that does not answer the probe. *)
Definition down : Env :=
  {| settings := {[ "ELASTICSEARCH_URL" := url;
                    "ELASTICSEARCH_MAX_TIMEOUT" := PyInt 5 ]};
     django_version := "1.8.2";
     world := λ _ c, match c with
                     | RequestsGet _ _ => Raised timeout_exc
                     | _ => Returned
                     end |}.

End Sample.

(** ** The save and delete handlers *)

Ltac run_handler :=
  unfold events, result, es_save_callback, es_delete_callback, sync_model,
    try_except, probe, bind, settings_attr, settings_getattr, call,
    log_not_responding, logger_error, raise, ret;
  simpl;
  repeat match goal with
    | |- context [settings ?env !! ?k] => destruct (settings env !! k) eqn:?
    | |- context [world ?env ?h ?c] => destruct (world env h c) eqn:?
    | |- context [caught ?e] => destruct (caught e) eqn:?
    end;
  simpl.





(** The calls of one run of the save handler: nothing, the probe alone, or
    the probe followed by one [do_index]. *)
Lemma es_save_callback_calls env h sender instance :
  calls (events (es_save_callback sender instance) env h) = []
  ∨ (∃ url timeout,
       calls (events (es_save_callback sender instance) env h)
       = [RequestsGet url timeout])
  ∨ (∃ url timeout,
       calls (events (es_save_callback sender instance) env h)
       = [RequestsGet url timeout; EsDoIndex instance]).
Proof.
  unfold es_save_callback.
  destruct (issubclass sender EsIndexable.name); simpl; [|by left].
  run_handler; eauto.
Qed.

Lemma es_delete_callback_calls env h sender instance :
  calls (events (es_delete_callback sender instance) env h) = []
  ∨ (∃ url timeout,
       calls (events (es_delete_callback sender instance) env h)
       = [RequestsGet url timeout])
  ∨ (∃ url timeout,
       calls (events (es_delete_callback sender instance) env h)
       = [RequestsGet url timeout; EsDelete instance]).
Proof.
  unfold es_delete_callback.
  destruct (issubclass sender EsIndexable.name); simpl; [|by left].
  run_handler; eauto.
Qed.

(** C5. One event delivered to [es_save_callback] or [es_delete_callback]
    leads to at most one attempt of the index operation, for the instance
    of that event and no other: the calls of the run are a prefix of
    "probe, operation", so nothing is repeated and nothing is carried over
    from or to another event. *)
Theorem at_most_one_attempt_per_event env h sender instance :
  (∃ url timeout,
     calls (events (es_save_callback sender instance) env h)
     `prefix_of` [RequestsGet url timeout; EsDoIndex instance])
  ∧ (∃ url timeout,
       calls (events (es_delete_callback sender instance) env h)
       `prefix_of` [RequestsGet url timeout; EsDelete instance])
  ∧ (index_ops (events (es_save_callback sender instance) env h) = []
     ∨ index_ops (events (es_save_callback sender instance) env h)
       = [EsDoIndex instance])
  ∧ (index_ops (events (es_delete_callback sender instance) env h) = []
     ∨ index_ops (events (es_delete_callback sender instance) env h)
       = [EsDelete instance]).
Proof.
  pose proof (es_save_callback_calls env h sender instance) as Hs.
  pose proof (es_delete_callback_calls env h sender instance) as Hd.
  split_and!.
  - destruct Hs as [->|[(u & t & ->)|(u & t & ->)]].
    + exists PyNone, PyNone. apply prefix_nil.
    + exists u, t. by eexists [_].
    + exists u, t. done.
  - destruct Hd as [->|[(u & t & ->)|(u & t & ->)]].
    + exists PyNone, PyNone. apply prefix_nil.
    + exists u, t. by eexists [_].
    + exists u, t. done.
  - clear. unfold es_save_callback.
    destruct (issubclass sender EsIndexable.name); simpl; [|by left].
    run_handler; auto.
  - clear. unfold es_delete_callback.
    destruct (issubclass sender EsIndexable.name); simpl; [|by left].
    run_handler; auto.
Qed.

(** C8. For a sender that is not a subclass of [EsIndexable] the save and
    delete handlers return at once: no probe, no index operation, no log
    entry, no event at all, and a normal return. *)
Theorem handlers_ignore_other_senders env h sender instance :
  issubclass sender EsIndexable.name = false →
  es_save_callback sender instance env h = ([], Ok tt)
  ∧ es_delete_callback sender instance env h = ([], Ok tt).
Proof.
  intros Hsub. unfold es_save_callback, es_delete_callback.
  rewrite Hsub. done.
Qed.

Lemma handlers_ignore_other_senders_witness :
  es_save_callback Sample.Session Sample.session Sample.up [] = ([], Ok tt)
  ∧ es_delete_callback Sample.Session Sample.session Sample.up [] = ([], Ok tt).
Proof.
  apply (handlers_ignore_other_senders Sample.up [] Sample.Session Sample.session).
  reflexivity.
Defined.

(** ** Instances deserialized from the search index *)

(** C9. On an instance whose [_is_es_deserialized] is truthy, [save()] and
    [delete()] raise [ValueError] and the database operation of [Model] is
    not called; on an instance where the attribute is falsy or absent they
    do exactly what the call of the parent implementation does. *)
Theorem deserialized_instances_never_reach_the_database env h self args kwargs :
  (is_es_deserialized self = true →
     EsIndexable.save self args kwargs env h = ([], Exc (no_db_error self))
     ∧ EsIndexable.delete self args kwargs env h = ([], Exc (no_db_error self)))
  ∧ (is_es_deserialized self = false →
       EsIndexable.save self args kwargs env h
       = call (ModelSave self args kwargs) env h
       ∧ EsIndexable.delete self args kwargs env h
         = call (ModelDelete self args kwargs) env h)
  ∧ (inst_dict self !! "_is_es_deserialized" = None →
       is_es_deserialized self = false).
Proof.
  unfold is_es_deserialized, EsIndexable.save, EsIndexable.delete,
    EsIndexable._raise_no_db_operation, no_db_error.
  split_and!.
  - intros ->. done.
  - intros ->. unfold bind, ret, call. simpl. rewrite app_nil_r.
    split; by destruct (world env _ _).
  - unfold getattr. intros ->. done.
Qed.

Lemma deserialized_instances_never_reach_the_database_witness :
  EsIndexable.save Sample.from_es [] ∅ Sample.up []
  = ([], Exc (no_db_error Sample.from_es))
  ∧ EsIndexable.delete Sample.from_es [] ∅ Sample.up []
    = ([], Exc (no_db_error Sample.from_es)).
Proof.
  apply (proj1 (deserialized_instances_never_reach_the_database
                  Sample.up [] Sample.from_es [] ∅)).
  reflexivity.
Defined.

(** ** The loop of the migration handler *)

Lemma for_each_cons {A} (x : A) xs body env h :
  for_each (x :: xs) body env h =
  match body x env h with
  | (t1, Ok _) =>
      match for_each xs body env (h ++ t1) with
      | (t2, r) => (t1 ++ t2, r)
      end
  | (t1, Exc e) => (t1, Exc e)
  end.
Proof. reflexivity. Qed.

(** A property of single events that every run of the body has holds of
    the run of the loop. *)
Lemma for_each_Forall {A} (P : Event → Prop) (xs : list A) body env :
  (∀ x h, Forall P (events (body x) env h)) →
  ∀ h, Forall P (events (for_each xs body) env h).
Proof.
  intros Hbody. induction xs as [|x xs IH]; intros h.
  - constructor.
  - unfold events in *. rewrite for_each_cons.
    specialize (Hbody x h). destruct (body x env h) as [t1 [[]|e]]; simpl in *.
    + specialize (IH (h ++ t1)).
      destruct (for_each xs body env (h ++ t1)) as [t2 r]; simpl in *.
      by apply Forall_app.
    + done.
Qed.


(** The migration handler, with the reading of the version spelled out. *)
Lemma es_syncdb_callback_run env h sender created_models :
  es_syncdb_callback sender created_models env h =
  match String.get 2 (django_version env) with
  | None => ([], Exc index_error)
  | Some c =>
      match digit_value c with
      | None => ([], Exc (int_error c))
      | Some n =>
          for_each (if (6 <? n)%Z then get_models sender
                    else default [] created_models) sync_model env h
      end
  end.
Proof.
  unfold es_syncdb_callback, bind, get_version, str_getitem, py_int. simpl.
  destruct (String.get 2 (django_version env)) as [c|]; simpl; [|done].
  destruct (digit_value c) as [n|]; simpl; [|done].
  rewrite !app_nil_r.
  by destruct (for_each _ sync_model env h).
Qed.

Lemma sync_model_run m env h :
  sync_model m env h =
  if issubclass m EsIndexable.name then
    match settings env !! "ELASTICSEARCH_URL" with
    | None => ([], Exc (missing_setting "ELASTICSEARCH_URL"))
    | Some url =>
        let get := RequestsGet url (getattr (settings env) "ELASTICSEARCH_MAX_TIMEOUT" PyNone) in
        match world env h get with
        | Raised e => handled [EvCall get (Raised e)] e
        | Returned =>
            match world env (h ++ [EvCall get Returned]) (EsCreateIndex m) with
            | Raised e =>
                handled [EvCall get Returned; EvCall (EsCreateIndex m) (Raised e)] e
            | Returned =>
                match world env (h ++ [EvCall get Returned;
                                       EvCall (EsCreateIndex m) Returned])
                        (EsReindexAll m) with
                | Raised e =>
                    handled [EvCall get Returned;
                             EvCall (EsCreateIndex m) Returned;
                             EvCall (EsReindexAll m) (Raised e)] e
                | Returned =>
                    ([EvCall get Returned;
                      EvCall (EsCreateIndex m) Returned;
                      EvCall (EsReindexAll m) Returned], Ok tt)
                end
            end
        end
    end
  else ([], Ok tt).
Proof.
  unfold sync_model. destruct (issubclass m EsIndexable.name); [|done].
  unfold try_except, probe, bind, settings_attr, settings_getattr, call,
    log_not_responding, logger_error, raise, handled, not_responding.
  simpl.
  destruct (settings env !! "ELASTICSEARCH_URL"); simpl; [|done].
  rewrite !app_nil_r.
  destruct (world env h _); simpl; [|by destruct (caught e)].
  destruct (world env _ (EsCreateIndex m)); simpl; [|by destruct (caught e)].
  rewrite <- app_assoc. simpl.
  destruct (world env _ (EsReindexAll m)); simpl; [done|by destruct (caught e)].
Qed.

(** The loop reads the settings and asks the world; the version plays no
    part in it. *)
Lemma for_each_sync_model_env env env' models :
  settings env' = settings env →
  world env' = world env →
  ∀ h, for_each models sync_model env' h = for_each models sync_model env h.
Proof.
  intros Hs Hw. induction models as [|m ms IH]; intros h; [done|].
  rewrite !for_each_cons.
  assert (sync_model m env' h = sync_model m env h) as ->.
  { by rewrite !sync_model_run, Hs, Hw. }
  destruct (sync_model m env h) as [t1 [[]|e]]; [|done].
  by rewrite IH.
Qed.

(** C10. [es_syncdb_callback] chooses the models from the character at
    index 2 of the version string alone: when that character is the digit
    [n], it processes [sender.get_models()] if [n > 6] and otherwise
    [created_models], the empty list when the argument is left out; two
    versions with the same character at index 2 give the same run; the
    version "1.10" has '1' there and selects [created_models]. *)
Theorem syncdb_models_chosen_by_third_character env h sender created_models :
  (∀ c n,
     String.get 2 (django_version env) = Some c →
     digit_value c = Some n →
     es_syncdb_callback sender created_models env h
     = for_each (if (6 <? n)%Z then get_models sender
                 else default [] created_models) sync_model env h)
  ∧ (∀ env',
       settings env' = settings env →
       world env' = world env →
       String.get 2 (django_version env') = String.get 2 (django_version env) →
       es_syncdb_callback sender created_models env' h
       = es_syncdb_callback sender created_models env h)
  ∧ default [] (None : option (list PyClass)) = []
  ∧ String.get 2 "1.10" = Some "1"%char
  ∧ digit_value "1" = Some 1%Z
  ∧ (django_version env = "1.10" →
     es_syncdb_callback sender created_models env h
     = for_each (default [] created_models) sync_model env h).
Proof.
  split_and!; try done.
  - intros c n Hc Hn. by rewrite es_syncdb_callback_run, Hc, Hn.
  - intros env' Hs Hw Hv. rewrite !es_syncdb_callback_run, Hv.
    destruct (String.get 2 (django_version env)) as [c|]; [|done].
    destruct (digit_value c) as [n|]; [|done].
    by apply for_each_sync_model_env.
  - intros Hv. by rewrite es_syncdb_callback_run, Hv.
Qed.

Lemma syncdb_models_chosen_by_third_character_witness :
  es_syncdb_callback Sample.blog (Some [Sample.Comment]) Sample.up []
  = for_each [Sample.Comment] sync_model Sample.up [].
Proof.
  apply (proj1 (syncdb_models_chosen_by_third_character
                  Sample.up [] Sample.blog (Some [Sample.Comment]))
           "1"%char 1%Z); reflexivity.
Defined.

(** ** Normal form of the save and delete handlers *)

Lemma try_probe_then op env h :
  try_except (probe ;; call op) log_not_responding env h = probe_then op env h.
Proof.
  unfold probe_then, try_except, probe, bind, settings_attr, settings_getattr,
    call, log_not_responding, logger_error, raise, handled, not_responding.
  simpl.
  destruct (settings env !! "ELASTICSEARCH_URL"); simpl; [|done].
  rewrite !app_nil_r.
  destruct (world env h _); simpl; [|by destruct (caught e)].
  destruct (world env _ op); simpl; [done|by destruct (caught e)].
Qed.

Lemma es_save_callback_run sender instance env h :
  es_save_callback sender instance env h =
  if issubclass sender EsIndexable.name
  then probe_then (EsDoIndex instance) env h
  else ([], Ok tt).
Proof.
  unfold es_save_callback.
  destruct (issubclass sender EsIndexable.name); simpl; [|done].
  apply try_probe_then.
Qed.

Lemma es_delete_callback_run sender instance env h :
  es_delete_callback sender instance env h =
  if issubclass sender EsIndexable.name
  then probe_then (EsDelete instance) env h
  else ([], Ok tt).
Proof.
  unfold es_delete_callback.
  destruct (issubclass sender EsIndexable.name); simpl; [|done].
  apply try_probe_then.
Qed.

(** ** The probe *)

Lemma handled_Forall (P : Event → Prop) tr e :
  Forall P tr → (∀ msg, P (EvLogError msg)) → Forall P (handled tr e).1.
Proof.
  intros Htr Hlog. unfold handled. destruct (caught e); simpl; [|done].
  apply Forall_app. split; [done|]. by repeat constructor.
Qed.

Lemma probe_then_as_configured op env h :
  (∀ url timeout, op ≠ RequestsGet url timeout) →
  Forall (probe_as_configured env) (probe_then op env h).1.
Proof.
  intros Hop. unfold probe_then.
  destruct (settings env !! "ELASTICSEARCH_URL") as [url|] eqn:Hurl; simpl;
    [|constructor].
  assert (∀ o, probe_as_configured env
    (EvCall (RequestsGet url (getattr (settings env) "ELASTICSEARCH_MAX_TIMEOUT" PyNone)) o))
    as Hget by done.
  assert (∀ o, probe_as_configured env (EvCall op o)) as Hopev.
  { intros o. destruct op; simpl; try done. by destruct (Hop url0 timeout). }
  destruct (world env h _); simpl.
  - destruct (world env _ op); simpl.
    + by repeat constructor.
    + apply handled_Forall; [|done]. by repeat constructor.
  - apply handled_Forall; [|done]. by repeat constructor.
Qed.

Lemma sync_model_as_configured m env h :
  Forall (probe_as_configured env) (events (sync_model m) env h).
Proof.
  unfold events. rewrite sync_model_run.
  destruct (issubclass m EsIndexable.name); simpl; [|constructor].
  destruct (settings env !! "ELASTICSEARCH_URL") as [url|] eqn:Hurl; simpl;
    [|constructor].
  assert (∀ o, probe_as_configured env
    (EvCall (RequestsGet url (getattr (settings env) "ELASTICSEARCH_MAX_TIMEOUT" PyNone)) o))
    as Hget by done.
  destruct (world env h _); simpl;
    [|apply handled_Forall; [|done]; by repeat constructor].
  destruct (world env _ (EsCreateIndex m)); simpl;
    [|apply handled_Forall; [|done]; by repeat constructor].
  destruct (world env _ (EsReindexAll m)); simpl;
    [|apply handled_Forall; [|done]; by repeat constructor].
  by repeat constructor.
Qed.

Lemma es_syncdb_callback_as_configured sender created_models env h :
  Forall (probe_as_configured env)
         (events (es_syncdb_callback sender created_models) env h).
Proof.
  unfold events. rewrite es_syncdb_callback_run.
  destruct (String.get 2 (django_version env)) as [c|]; [|constructor].
  destruct (digit_value c) as [n|]; [|constructor].
  apply for_each_Forall. intros m h'. apply sync_model_as_configured.
Qed.

Lemma elem_of_probes url timeout tr :
  (url, timeout) ∈ probes tr ↔ ∃ o, EvCall (RequestsGet url timeout) o ∈ tr.
Proof.
  unfold probes. rewrite list_elem_of_omap. split.
  - intros (ev & Hin & Hev). destruct ev as [[] o| |]; simplify_eq. eauto.
  - intros [o Hin]. by eexists.
Qed.

(** C7. Every connectivity probe of the three handlers is a GET on the
    value of [settings.ELASTICSEARCH_URL], with the value of
    [settings.ELASTICSEARCH_MAX_TIMEOUT] as timeout, [None] when that
    setting is absent; both values are passed as they are. *)
Theorem probes_use_the_settings_verbatim env h sender instance app created_models url timeout :
  (url, timeout) ∈ probes (events (es_save_callback sender instance) env h)
  ∨ (url, timeout) ∈ probes (events (es_delete_callback sender instance) env h)
  ∨ (url, timeout) ∈ probes (events (es_syncdb_callback app created_models) env h) →
  settings env !! "ELASTICSEARCH_URL" = Some url
  ∧ timeout = default PyNone (settings env !! "ELASTICSEARCH_MAX_TIMEOUT").
Proof.
  assert (∀ tr, Forall (probe_as_configured env) tr →
                (url, timeout) ∈ probes tr →
                settings env !! "ELASTICSEARCH_URL" = Some url
                ∧ timeout = default PyNone (settings env !! "ELASTICSEARCH_MAX_TIMEOUT"))
    as Hall.
  { intros tr Htr [o Hin]%elem_of_probes.
    rewrite Forall_forall in Htr. apply (Htr _ Hin). }
  intros [Hin|[Hin|Hin]]; revert Hin; apply Hall.
  - unfold events. rewrite es_save_callback_run.
    destruct (issubclass sender EsIndexable.name); [|constructor].
    by apply probe_then_as_configured.
  - unfold events. rewrite es_delete_callback_run.
    destruct (issubclass sender EsIndexable.name); [|constructor].
    by apply probe_then_as_configured.
  - apply es_syncdb_callback_as_configured.
Qed.

Lemma probes_use_the_settings_verbatim_witness :
  settings Sample.down !! "ELASTICSEARCH_URL" = Some Sample.url
  ∧ PyInt 5 = default PyNone (settings Sample.down !! "ELASTICSEARCH_MAX_TIMEOUT").
Proof.
  apply (probes_use_the_settings_verbatim Sample.down [] Sample.Article
           Sample.article Sample.blog None Sample.url (PyInt 5)).
  left. vm_compute. left.
Defined.

(** ** The wiring at import time *)

Lemma module_import_cases st :
  (auto_index st = true
   ∧ module_import st = [(class_prepared, recv_add_es_manager);
                         (post_save, recv_es_save_callback);
                         (post_delete, recv_es_delete_callback);
                         (post_migrate, recv_es_syncdb_callback)])
  ∨ (auto_index st = false
     ∧ module_import st = [(class_prepared, recv_add_es_manager)]).
Proof.
  unfold module_import, auto_index.
  destruct (truthy _); [left|right]; done.
Qed.

(** C6. The three handlers are connected, each to its own signal and to
    no other, if and only if [ELASTICSEARCH_AUTO_INDEX] is truthy when the
    module is imported.  When the setting is absent it counts as [False]:
    nothing is connected to [post_save], [post_delete] or [post_migrate],
    and sending one of these signals produces no event at all. *)
Theorem handlers_connected_iff_auto_index st :
  ((post_save, recv_es_save_callback) ∈ module_import st ↔ auto_index st = true)
  ∧ ((post_delete, recv_es_delete_callback) ∈ module_import st
     ↔ auto_index st = true)
  ∧ ((post_migrate, recv_es_syncdb_callback) ∈ module_import st
     ↔ auto_index st = true)
  ∧ (∀ sig r, lifecycle sig → (sig, r) ∈ module_import st →
       (sig, r) = (post_save, recv_es_save_callback)
       ∨ (sig, r) = (post_delete, recv_es_delete_callback)
       ∨ (sig, r) = (post_migrate, recv_es_syncdb_callback))
  ∧ (st !! "ELASTICSEARCH_AUTO_INDEX" = None →
       auto_index st = false
       ∧ (∀ sig r, lifecycle sig → (sig, r) ∉ module_import st)
       ∧ (∀ s env h, lifecycle (signal_of s) →
            send (module_import st) s env h = ([], Ok tt))).
Proof.
  assert (st !! "ELASTICSEARCH_AUTO_INDEX" = None → auto_index st = false)
    as Habsent.
  { unfold auto_index, getattr. by intros ->. }
  assert (∀ sig, lifecycle sig → sig ≠ class_prepared) as Hlife.
  { intros sig [->|[->| ->]]; done. }
  destruct (module_import_cases st) as [[Ha ->]|[Ha ->]]; rewrite Ha.
  - split_and!.
    + split; [done|]. intros _. rewrite !elem_of_cons. auto.
    + split; [done|]. intros _. rewrite !elem_of_cons. auto.
    + split; [done|]. intros _. rewrite !elem_of_cons. auto.
    + intros sig r Hsig%Hlife. rewrite !elem_of_cons, elem_of_nil.
      intros [?|[?|[?|[?|[]]]]]; simplify_eq; auto.
    + intros Hst. apply Habsent in Hst. congruence.
  - split_and!.
    + split; [|done]. rewrite !elem_of_cons, elem_of_nil. intros [?|[]]. done.
    + split; [|done]. rewrite !elem_of_cons, elem_of_nil. intros [?|[]]. done.
    + split; [|done]. rewrite !elem_of_cons, elem_of_nil. intros [?|[]]. done.
    + intros sig r Hsig%Hlife. rewrite !elem_of_cons, elem_of_nil.
      intros [?|[]]; simplify_eq.
    + intros _. split_and!; [done| |].
      * intros sig r Hsig%Hlife. rewrite !elem_of_cons, elem_of_nil.
        intros [?|[]]; simplify_eq.
      * intros s env h Hsig%Hlife. unfold send.
        unfold filter. simpl.
        destruct (decide (class_prepared = signal_of s)); [congruence|done].
Qed.

Lemma handlers_connected_iff_auto_index_witness :
  send (module_import ∅) (SentPostSave Sample.Article Sample.article) Sample.up []
  = ([], Ok tt).
Proof.
  apply (proj2 (proj2 (proj2 (proj2 (handlers_connected_iff_auto_index ∅)))));
    [reflexivity|]. left. reflexivity.
Defined.

(** ** The block of one model in the migration handler *)

Lemma handled_logged tr e : (handled tr e).1 = tr ++ logged e.
Proof.
  unfold handled, logged. destruct (caught e); simpl; [done|].
  by rewrite app_nil_r.
Qed.

Lemma sync_model_block m env h : model_block m (events (sync_model m) env h).
Proof.
  unfold events. rewrite sync_model_run.
  destruct (issubclass m EsIndexable.name) eqn:Hsub; simpl;
    [|by apply block_skipped].
  destruct (settings env !! "ELASTICSEARCH_URL") as [url|]; simpl;
    [|by apply block_no_url].
  destruct (world env h _); simpl;
    [|rewrite handled_logged; by apply block_probe_failed].
  destruct (world env _ (EsCreateIndex m)); simpl;
    [|rewrite handled_logged; by apply block_create_failed].
  destruct (world env _ (EsReindexAll m)); simpl;
    [by apply block_done|rewrite handled_logged; by apply block_reindex_failed].
Qed.

(** *** The loop, block by block *)















(** ** Connection errors *)

Lemma raised_app t1 t2 : raised (t1 ++ t2) = raised t1 ++ raised t2.
Proof. apply omap_app. Qed.




Lemma logged_lookup_call e i c o : logged e !! i = Some (EvCall c o) → False.
Proof.
  unfold logged. destruct (caught e); [|by rewrite lookup_nil].
  destruct i as [|i]; simpl; [done|by rewrite lookup_nil].
Qed.



(** How one turn of the loop can end with an exception: the exception is
    not one of the [except] clause, and it was raised by a call of the
    turn, unless the URL setting is missing. *)
Lemma sync_model_exc m env h e :
  result (sync_model m) env h = Exc e →
  caught e = false
  ∧ (e ∈ raised (events (sync_model m) env h)
     ∨ (events (sync_model m) env h = []
        ∧ settings env !! "ELASTICSEARCH_URL" = None)).
Proof.
  unfold result, events. rewrite sync_model_run.
  destruct (issubclass m EsIndexable.name); simpl; [|done].
  destruct (settings env !! "ELASTICSEARCH_URL") as [url|]; simpl.
  2:{ intros [= <-]. split; [done|by right]. }
  assert (∀ tr e', (handled tr e').2 = Exc e →
                   e' ∈ raised tr →
                   caught e = false ∧ e ∈ raised (handled tr e').1) as Hh.
  { intros tr e'. unfold handled. destruct (caught e') eqn:He'; simpl; [done|].
    by intros [= <-]. }
  destruct (world env h _) as [|e1]; simpl.
  - destruct (world env _ (EsCreateIndex m)) as [|e2]; simpl.
    + destruct (world env _ (EsReindexAll m)) as [|e3]; simpl; [done|].
      intros H. apply Hh in H as [? ?]; [by auto|]. simpl. left.
    + intros H. apply Hh in H as [? ?]; [by auto|]. simpl. left.
  - intros H. apply Hh in H as [? ?]; [by auto|]. simpl. left.
Qed.

Lemma sync_model_no_url m env h :
  settings env !! "ELASTICSEARCH_URL" = None →
  events (sync_model m) env h = [].
Proof.
  intros Hurl. unfold events. rewrite sync_model_run, Hurl.
  by destruct (issubclass m EsIndexable.name).
Qed.

Lemma for_each_sync_model_exc models env h e :
  result (for_each models sync_model) env h = Exc e →
  caught e = false
  ∧ (e ∈ raised (events (for_each models sync_model) env h)
     ∨ events (for_each models sync_model) env h = []).
Proof.
  assert (result (for_each models sync_model) env h = Exc e →
          caught e = false
          ∧ (e ∈ raised (events (for_each models sync_model) env h)
             ∨ (events (for_each models sync_model) env h = []
                ∧ settings env !! "ELASTICSEARCH_URL" = None))) as Hgen.
  { revert h. induction models as [|m ms IH]; intros h; [done|].
    unfold result, events in *. rewrite for_each_cons.
    pose proof (sync_model_exc m env h e) as Hm.
    pose proof (sync_model_no_url m env h) as Hno.
    unfold result, events in Hm, Hno.
    destruct (sync_model m env h) as [t1 [[]|e1]]; simpl in *.
    - specialize (IH (h ++ t1)).
      destruct (for_each ms sync_model env (h ++ t1)) as [t2 r]; simpl in *.
      intros Hr. destruct (IH Hr) as [Hc [Hin|[-> Hurl]]]; split; try done.
      + left. rewrite raised_app, elem_of_app. by right.
      + right. by rewrite (Hno Hurl).
    - done. }
  intros Hr. destruct (Hgen Hr) as [Hc [?|[? _]]]; auto.
Qed.

Lemma es_syncdb_callback_exc sender created_models env h e :
  result (es_syncdb_callback sender created_models) env h = Exc e →
  caught e = false
  ∧ (e ∈ raised (events (es_syncdb_callback sender created_models) env h)
     ∨ events (es_syncdb_callback sender created_models) env h = []).
Proof.
  unfold result, events. rewrite es_syncdb_callback_run.
  destruct (String.get 2 (django_version env)) as [c|]; simpl.
  2:{ intros [= <-]. split; [done|by right]. }
  destruct (digit_value c) as [n|]; simpl.
  2:{ intros [= <-]. split; [done|by right]. }
  apply for_each_sync_model_exc.
Qed.





(** ** Further properties of the handlers *)

(** *** Sending the signals *)

Lemma for_each_one {A} (x : A) (body : A → M unit) env h :
  for_each [x] body env h = body x env h.
Proof.
  rewrite for_each_cons.
  destruct (body x env h) as [t1 [[]|e]]; simpl; [|done].
  unfold ret. by rewrite app_nil_r.
Qed.

(** X7. With [ELASTICSEARCH_AUTO_INDEX] truthy at import, sending
    [post_save], [post_delete] or [post_migrate] runs the handler of that
    signal and nothing else: the run of [send] is the run of the handler. *)
Theorem send_runs_the_handler_of_the_signal st env h sender instance app created_models :
  auto_index st = true →
  send (module_import st) (SentPostSave sender instance) env h
  = es_save_callback sender instance env h
  ∧ send (module_import st) (SentPostDelete sender instance) env h
    = es_delete_callback sender instance env h
  ∧ send (module_import st) (SentPostMigrate app created_models) env h
    = es_syncdb_callback app created_models env h.
Proof.
  intros Ha.
  destruct (module_import_cases st) as [[_ ->]|[Hf _]]; [|congruence].
  split_and!; unfold send, filter; simpl; apply for_each_one.
Qed.

Lemma send_runs_the_handler_of_the_signal_witness :
  send (module_import {[ "ELASTICSEARCH_AUTO_INDEX" := PyBool true ]})
    (SentPostSave Sample.Article Sample.article) Sample.up []
  = es_save_callback Sample.Article Sample.article Sample.up [].
Proof.
  apply (send_runs_the_handler_of_the_signal
           {[ "ELASTICSEARCH_AUTO_INDEX" := PyBool true ]}
           Sample.up [] Sample.Article Sample.article Sample.blog None).
  reflexivity.
Defined.

(** X8. [add_es_manager] is connected to [class_prepared] whatever the
    settings say.  Sending [class_prepared] for a class under
    [EsIndexable] builds one manager for that class and attaches it; when
    building the manager raises, the exception leaves the receiver (no
    [try] surrounds it) and nothing is attached.  For any other class
    nothing happens.  In no case is the backend probed, the index touched
    or anything logged. *)
Theorem class_prepared_attaches_the_manager st env h sender :
  (class_prepared, recv_add_es_manager) ∈ module_import st
  ∧ send (module_import st) (SentClassPrepared sender) env h
    = (if issubclass sender EsIndexable.name then
         match world env h (ElasticsearchManagerNew sender) with
         | Returned =>
             ([EvCall (ElasticsearchManagerNew sender) Returned;
               EvSetManager sender], Ok tt)
         | Raised e =>
             ([EvCall (ElasticsearchManagerNew sender) (Raised e)], Exc e)
         end
       else ([], Ok tt))
  ∧ probes (events (send (module_import st) (SentClassPrepared sender)) env h) = []
  ∧ index_ops (events (send (module_import st) (SentClassPrepared sender)) env h) = []
  ∧ log_errors (events (send (module_import st) (SentClassPrepared sender)) env h) = [].
Proof.
  assert (send (module_import st) (SentClassPrepared sender) env h
          = (if issubclass sender EsIndexable.name then
               match world env h (ElasticsearchManagerNew sender) with
               | Returned =>
                   ([EvCall (ElasticsearchManagerNew sender) Returned;
                     EvSetManager sender], Ok tt)
               | Raised e =>
                   ([EvCall (ElasticsearchManagerNew sender) (Raised e)], Exc e)
               end
             else ([], Ok tt))) as Hsend.
  { destruct (module_import_cases st) as [[_ ->]|[_ ->]];
      unfold send, filter; simpl;
      (etrans; [apply for_each_one|]); simpl;
      unfold add_es_manager, bind, call, set_manager;
      destruct (issubclass sender EsIndexable.name); try done;
      by destruct (world env h _). }
  split_and!.
  - destruct (module_import_cases st) as [[_ ->]|[_ ->]]; apply elem_of_cons; auto.
  - done.
  - unfold events. rewrite Hsend.
    destruct (issubclass sender EsIndexable.name); [|done].
    by destruct (world env h _).
  - unfold events. rewrite Hsend.
    destruct (issubclass sender EsIndexable.name); [|done].
    by destruct (world env h _).
  - unfold events. rewrite Hsend.
    destruct (issubclass sender EsIndexable.name); [|done].
    by destruct (world env h _).
Qed.

(** *** Reading the version *)

Lemma string_get_short s i : (String.length s ≤ i)%nat → String.get i s = None.
Proof.
  revert i. induction s as [|a s IH]; intros i Hlen; simpl in *; [done|].
  destruct i as [|i]; [lia|]. apply IH. lia.
Qed.

Lemma digit_value_None c :
  (Z.of_N (N_of_ascii c) < 48 ∨ 57 < Z.of_N (N_of_ascii c))%Z →
  digit_value c = None.
Proof.
  intros Hc. unfold digit_value.
  destruct (48 <=? Z.of_N (N_of_ascii c))%Z eqn:H1; simpl; [|done].
  destruct (Z.of_N (N_of_ascii c) <=? 57)%Z eqn:H2; simpl; [|done].
  apply Z.leb_le in H1, H2. lia.
Qed.

(** X3. [es_syncdb_callback] raises before it does anything when the
    version cannot be read: [IndexError] for a version string of fewer
    than three characters, [ValueError] when the character at index 2 is
    not one of '0'..'9' (as in "10.0").  Neither lies in the [except]
    clause; no probe is made and nothing is logged. *)
Theorem syncdb_rejects_unreadable_versions env h sender created_models :
  ((String.length (django_version env) < 3)%nat →
   es_syncdb_callback sender created_models env h = ([], Exc index_error))
  ∧ (∀ c,
       String.get 2 (django_version env) = Some c →
       (Z.of_N (N_of_ascii c) < 48 ∨ 57 < Z.of_N (N_of_ascii c))%Z →
       es_syncdb_callback sender created_models env h
       = ([], Exc (int_error c)))
  ∧ caught index_error = false
  ∧ (∀ c, caught (int_error c) = false).
Proof.
  split_and!; [| |done|done].
  - intros Hlen. rewrite es_syncdb_callback_run, string_get_short; [done|lia].
  - intros c Hc Hd. by rewrite es_syncdb_callback_run, Hc, digit_value_None.
Qed.

Lemma syncdb_rejects_unreadable_versions_witness :
  es_syncdb_callback Sample.blog None Sample.short_version []
  = ([], Exc index_error)
  ∧ es_syncdb_callback Sample.blog None Sample.odd_version []
    = ([], Exc (int_error "."%char)).
Proof.
  split.
  - apply (proj1 (syncdb_rejects_unreadable_versions
                    Sample.short_version [] Sample.blog None)).
    simpl. lia.
  - apply (proj1 (proj2 (syncdb_rejects_unreadable_versions
                           Sample.odd_version [] Sample.blog None))).
    + reflexivity.
    + left. reflexivity.
Defined.

(** X4. Which argument [es_syncdb_callback] reads.  With a digit [n <= 6]
    at index 2 of the version (Django 1.0 to 1.6, but also 1.10, 2.0, 3.2,
    ...) the models of the sender play no part, and without
    [created_models], or with an empty list, the handler does nothing and
    returns normally.  With [n > 6] the argument [created_models] plays no
    part. *)
Theorem syncdb_reads_one_source_of_models env h sender created_models c n :
  String.get 2 (django_version env) = Some c →
  digit_value c = Some n →
  ((n ≤ 6)%Z →
     (∀ sender', es_syncdb_callback sender' created_models env h
                 = es_syncdb_callback sender created_models env h)
     ∧ es_syncdb_callback sender None env h = ([], Ok tt)
     ∧ es_syncdb_callback sender (Some []) env h = ([], Ok tt))
  ∧ ((6 < n)%Z →
     ∀ created_models', es_syncdb_callback sender created_models' env h
                        = es_syncdb_callback sender created_models env h).
Proof.
  intros Hc Hn. split.
  - intros Hle. apply Z.ltb_ge in Hle.
    split_and!; [intros sender'| |]; by rewrite !es_syncdb_callback_run, Hc, Hn, Hle.
  - intros Hlt. apply Z.ltb_lt in Hlt.
    intros cm'. by rewrite !es_syncdb_callback_run, Hc, Hn, Hlt.
Qed.

Lemma syncdb_reads_one_source_of_models_witness :
  es_syncdb_callback Sample.blog None Sample.up [] = ([], Ok tt).
Proof.
  destruct (syncdb_reads_one_source_of_models
              Sample.up [] Sample.blog None "1"%char 1%Z) as [Hle _];
    [reflexivity|reflexivity|].
  apply Hle. lia.
Defined.

(** *** A missing URL *)

Lemma es_models_cons m ms :
  es_models (m :: ms)
  = if issubclass m EsIndexable.name then m :: es_models ms else es_models ms.
Proof.
  unfold es_models, filter. simpl.
  destruct (issubclass m EsIndexable.name); by destruct (decide _).
Qed.

Lemma for_each_sync_model_no_url models env h :
  settings env !! "ELASTICSEARCH_URL" = None →
  for_each models sync_model env h
  = ([], match es_models models with
         | [] => Ok tt
         | _ :: _ => Exc (missing_setting "ELASTICSEARCH_URL")
         end).
Proof.
  intros Hurl. revert h. induction models as [|m ms IH]; intros h; [done|].
  rewrite for_each_cons, sync_model_run, Hurl, es_models_cons.
  destruct (issubclass m EsIndexable.name); [done|].
  by rewrite IH.
Qed.

(** X2. Without [ELASTICSEARCH_URL] in the settings the handlers cannot
    probe: for a sender under [EsIndexable] the save and delete handlers
    raise [AttributeError], which the [except] clause does not match, and
    leave no event; the migration handler does the same as soon as the
    list holds a model under [EsIndexable], and returns normally when it
    holds none. *)
Theorem missing_url_is_an_attribute_error
    env h sender instance app created_models c n :
  settings env !! "ELASTICSEARCH_URL" = None →
  (issubclass sender EsIndexable.name = true →
     es_save_callback sender instance env h
     = ([], Exc (missing_setting "ELASTICSEARCH_URL"))
     ∧ es_delete_callback sender instance env h
       = ([], Exc (missing_setting "ELASTICSEARCH_URL")))
  ∧ (String.get 2 (django_version env) = Some c →
     digit_value c = Some n →
     events (es_syncdb_callback app created_models) env h = []
     ∧ (es_models (selected_models n app created_models) ≠ [] →
        result (es_syncdb_callback app created_models) env h
        = Exc (missing_setting "ELASTICSEARCH_URL"))
     ∧ (es_models (selected_models n app created_models) = [] →
        result (es_syncdb_callback app created_models) env h = Ok tt))
  ∧ caught (missing_setting "ELASTICSEARCH_URL") = false.
Proof.
  intros Hurl. split_and!; [| |done].
  - intros Hsub.
    rewrite es_save_callback_run, es_delete_callback_run, Hsub.
    unfold probe_then. by rewrite Hurl.
  - intros Hc Hn. unfold events, result.
    rewrite es_syncdb_callback_run, Hc, Hn.
    rewrite (for_each_sync_model_no_url _ env h Hurl).
    unfold selected_models. simpl.
    destruct (es_models _); split_and!; done.
Qed.

Lemma missing_url_is_an_attribute_error_witness :
  es_save_callback Sample.Article Sample.article Sample.unconfigured []
  = ([], Exc (missing_setting "ELASTICSEARCH_URL"))
  ∧ es_delete_callback Sample.Article Sample.article Sample.unconfigured []
    = ([], Exc (missing_setting "ELASTICSEARCH_URL")).
Proof.
  destruct (missing_url_is_an_attribute_error
              Sample.unconfigured [] Sample.Article Sample.article
              Sample.blog None "8"%char 8%Z) as [Hsave _]; [reflexivity|].
  apply Hsave. reflexivity.
Defined.

(** *** A backend that answers, a backend that is down *)

Lemma for_each_sync_model_up models env h url :
  (∀ h' c', world env h' c' = Returned) →
  settings env !! "ELASTICSEARCH_URL" = Some url →
  for_each models sync_model env h
  = (concat (full_block url (getattr (settings env) "ELASTICSEARCH_MAX_TIMEOUT" PyNone)
               <$> es_models models),
     Ok tt).
Proof.
  intros Hw Hurl. revert h. induction models as [|m ms IH]; intros h; [done|].
  rewrite for_each_cons, sync_model_run, Hurl, es_models_cons.
  destruct (issubclass m EsIndexable.name); simpl.
  - rewrite !Hw, IH. done.
  - by rewrite IH.
Qed.

(** X5. When the URL is configured and every call returns, the migration
    handler probes, creates the index and reindexes, in this order, for
    each model of the selected list that is under [EsIndexable], in the
    order of the list, skips the other models, logs nothing and returns
    normally; the save and delete handlers probe and make their one
    call. *)
Theorem handlers_when_the_backend_answers
    env h sender instance app created_models c n url :
  (∀ h' c', world env h' c' = Returned) →
  settings env !! "ELASTICSEARCH_URL" = Some url →
  String.get 2 (django_version env) = Some c →
  digit_value c = Some n →
  es_syncdb_callback app created_models env h
  = (concat (full_block url (getattr (settings env) "ELASTICSEARCH_MAX_TIMEOUT" PyNone)
               <$> es_models (selected_models n app created_models)),
     Ok tt)
  ∧ (issubclass sender EsIndexable.name = true →
     es_save_callback sender instance env h
     = ([EvCall (RequestsGet url (getattr (settings env) "ELASTICSEARCH_MAX_TIMEOUT" PyNone))
           Returned;
         EvCall (EsDoIndex instance) Returned], Ok tt)
     ∧ es_delete_callback sender instance env h
       = ([EvCall (RequestsGet url (getattr (settings env) "ELASTICSEARCH_MAX_TIMEOUT" PyNone))
             Returned;
           EvCall (EsDelete instance) Returned], Ok tt)).
Proof.
  intros Hw Hurl Hc Hn. split.
  - rewrite es_syncdb_callback_run, Hc, Hn.
    by apply for_each_sync_model_up.
  - intros Hsub.
    rewrite es_save_callback_run, es_delete_callback_run, Hsub.
    unfold probe_then. rewrite Hurl. simpl. by rewrite !Hw.
Qed.

Lemma handlers_when_the_backend_answers_witness :
  es_syncdb_callback Sample.blog None Sample.answering []
  = (full_block Sample.url PyNone Sample.Article
     ++ full_block Sample.url PyNone Sample.Comment, Ok tt).
Proof.
  destruct (handlers_when_the_backend_answers
              Sample.answering [] Sample.Article Sample.article
              Sample.blog None "8"%char 8%Z Sample.url) as [Hsync _];
    [reflexivity|reflexivity|reflexivity|reflexivity|].
  exact Hsync.
Defined.

Lemma index_ops_app t1 t2 : index_ops (t1 ++ t2) = index_ops t1 ++ index_ops t2.
Proof. apply omap_app. Qed.

Lemma probes_app t1 t2 : probes (t1 ++ t2) = probes t1 ++ probes t2.
Proof. apply omap_app. Qed.

Lemma log_errors_app t1 t2 : log_errors (t1 ++ t2) = log_errors t1 ++ log_errors t2.
Proof. apply omap_app. Qed.

Lemma for_each_sync_model_down models env h url :
  (∀ h' u t, ∃ e, world env h' (RequestsGet u t) = Raised e ∧ caught e = true) →
  settings env !! "ELASTICSEARCH_URL" = Some url →
  ∃ tr,
    for_each models sync_model env h = (tr, Ok tt)
    ∧ index_ops tr = []
    ∧ length (probes tr) = length (es_models models)
    ∧ length (log_errors tr) = length (es_models models).
Proof.
  intros Hdown Hurl. revert h.
  induction models as [|m ms IH]; intros h.
  - by exists [].
  - rewrite for_each_cons, sync_model_run, Hurl, es_models_cons.
    set (to := getattr (settings env) "ELASTICSEARCH_MAX_TIMEOUT" PyNone).
    destruct (issubclass m EsIndexable.name); simpl.
    + destruct (Hdown h url to) as (e & -> & Hc).
      unfold handled. rewrite Hc. simpl.
      destruct (IH (h ++ [EvCall (RequestsGet url to) (Raised e);
                          EvLogError (not_responding e)]))
        as (t2 & -> & Hops & Hprobes & Hlogs).
      exists ([EvCall (RequestsGet url to) (Raised e);
               EvLogError (not_responding e)] ++ t2).
      split; [done|].
      rewrite index_ops_app, probes_app, log_errors_app, !length_app.
      rewrite Hops, Hprobes, Hlogs. done.
    + destruct (IH (h ++ [])) as (t2 & -> & Hops & Hprobes & Hlogs).
      by exists t2.
Qed.

(** X6. When the URL is configured and every probe fails with an error of
    the [except] clause, nothing is sent to the index: the migration
    handler makes one probe and logs one error per model under
    [EsIndexable], goes through the whole list and returns normally; the
    save and delete handlers log the error of their one probe and return
    normally. *)
Theorem handlers_when_the_backend_is_down
    env h sender instance app created_models c n url :
  (∀ h' u t, ∃ e, world env h' (RequestsGet u t) = Raised e ∧ caught e = true) →
  settings env !! "ELASTICSEARCH_URL" = Some url →
  String.get 2 (django_version env) = Some c →
  digit_value c = Some n →
  (result (es_syncdb_callback app created_models) env h = Ok tt
   ∧ index_ops (events (es_syncdb_callback app created_models) env h) = []
   ∧ length (probes (events (es_syncdb_callback app created_models) env h))
     = length (es_models (selected_models n app created_models))
   ∧ length (log_errors (events (es_syncdb_callback app created_models) env h))
     = length (es_models (selected_models n app created_models)))
  ∧ (issubclass sender EsIndexable.name = true →
     ∃ e,
       caught e = true
       ∧ es_save_callback sender instance env h
         = ([EvCall (RequestsGet url
                       (getattr (settings env) "ELASTICSEARCH_MAX_TIMEOUT" PyNone))
               (Raised e);
             EvLogError (not_responding e)], Ok tt)
       ∧ es_delete_callback sender instance env h
         = ([EvCall (RequestsGet url
                       (getattr (settings env) "ELASTICSEARCH_MAX_TIMEOUT" PyNone))
               (Raised e);
             EvLogError (not_responding e)], Ok tt)).
Proof.
  intros Hdown Hurl Hc Hn. split.
  - unfold result, events. rewrite es_syncdb_callback_run, Hc, Hn.
    destruct (for_each_sync_model_down
                (selected_models n app created_models) env h url Hdown Hurl)
      as (tr & Hrun & Hops & Hprobes & Hlogs).
    unfold selected_models in Hrun. rewrite Hrun. done.
  - intros Hsub.
    destruct (Hdown h url (getattr (settings env) "ELASTICSEARCH_MAX_TIMEOUT" PyNone))
      as (e & He & Hcaught).
    exists e. split; [done|].
    rewrite es_save_callback_run, es_delete_callback_run, Hsub.
    unfold probe_then, handled. rewrite Hurl. simpl. by rewrite He, Hcaught.
Qed.

Lemma handlers_when_the_backend_is_down_witness :
  result (es_syncdb_callback Sample.blog None) Sample.down [] = Ok tt
  ∧ index_ops (events (es_syncdb_callback Sample.blog None) Sample.down []) = []
  ∧ length (probes (events (es_syncdb_callback Sample.blog None) Sample.down []))
    = length (es_models (selected_models 8 Sample.blog None))
  ∧ length (log_errors (events (es_syncdb_callback Sample.blog None) Sample.down []))
    = length (es_models (selected_models 8 Sample.blog None)).
Proof.
  destruct (handlers_when_the_backend_is_down
              Sample.down [] Sample.Article Sample.article
              Sample.blog None "8"%char 8%Z Sample.url) as [Hsync _];
    [|reflexivity|reflexivity|reflexivity|].
  - intros h' u t. exists Sample.timeout_exc. split; reflexivity.
  - exact Hsync.
Defined.

(** *** What is logged *)

Lemma caught_exceptions_app t1 t2 :
  caught_exceptions (t1 ++ t2) = caught_exceptions t1 ++ caught_exceptions t2.
Proof. apply omap_app. Qed.

Lemma log_mirrors_caught_app t1 t2 :
  log_mirrors_caught t1 → log_mirrors_caught t2 → log_mirrors_caught (t1 ++ t2).
Proof.
  unfold log_mirrors_caught. intros H1 H2.
  by rewrite log_errors_app, caught_exceptions_app, fmap_app, H1, H2.
Qed.

Lemma model_block_log_mirrors_caught m seg :
  model_block m seg → log_mirrors_caught seg.
Proof.
  unfold log_mirrors_caught, log_errors, caught_exceptions.
  intros [Hsub|Hsub|url to e Hsub|url to e Hsub|url to e Hsub|url to Hsub];
    simpl; try done; unfold logged; destruct (caught e); reflexivity.
Qed.

Lemma for_each_sync_model_log_mirrors_caught models env h :
  log_mirrors_caught (events (for_each models sync_model) env h).
Proof.
  revert h. induction models as [|m ms IH]; intros h; [done|].
  unfold events in *. rewrite for_each_cons.
  pose proof (sync_model_block m env h) as Hb. unfold events in Hb.
  destruct (sync_model m env h) as [t1 [[]|e]]; simpl in *.
  - specialize (IH (h ++ t1)).
    destruct (for_each ms sync_model env (h ++ t1)) as [t2 r]; simpl in *.
    apply log_mirrors_caught_app; [|done].
    by eapply model_block_log_mirrors_caught.
  - by eapply model_block_log_mirrors_caught.
Qed.

Lemma probe_then_log_mirrors_caught op env h :
  log_mirrors_caught (probe_then op env h).1.
Proof.
  unfold probe_then, log_mirrors_caught, log_errors, caught_exceptions, handled.
  destruct (settings env !! "ELASTICSEARCH_URL") as [url|]; simpl; [|done].
  destruct (world env h _) as [|e]; simpl;
    [|destruct (caught e) eqn:Hc; simpl; by rewrite Hc].
  destruct (world env _ op) as [|e]; simpl;
    [done|destruct (caught e) eqn:Hc; simpl; by rewrite Hc].
Qed.

(** X9. In every run of the three handlers the messages logged are, in
    order, one message per call that raised an exception matched by the
    [except] clause, built from that exception: nothing else is ever
    logged, and no caught exception goes without its message. *)
Theorem log_is_the_list_of_caught_exceptions
    env h sender instance app created_models :
  log_errors (events (es_save_callback sender instance) env h)
  = not_responding <$> caught_exceptions (events (es_save_callback sender instance) env h)
  ∧ log_errors (events (es_delete_callback sender instance) env h)
    = not_responding
        <$> caught_exceptions (events (es_delete_callback sender instance) env h)
  ∧ log_errors (events (es_syncdb_callback app created_models) env h)
    = not_responding
        <$> caught_exceptions (events (es_syncdb_callback app created_models) env h).
Proof.
  split_and!; unfold events.
  - rewrite es_save_callback_run.
    destruct (issubclass sender EsIndexable.name); [|done].
    apply probe_then_log_mirrors_caught.
  - rewrite es_delete_callback_run.
    destruct (issubclass sender EsIndexable.name); [|done].
    apply probe_then_log_mirrors_caught.
  - rewrite es_syncdb_callback_run.
    destruct (String.get 2 (django_version env)) as [c|]; [|done].
    destruct (digit_value c) as [n|]; [|done].
    apply for_each_sync_model_log_mirrors_caught.
Qed.

(** *** The order of the calls *)

Lemma each_op_follows_its_guard_app t1 t2 :
  each_op_follows_its_guard t1 →
  each_op_follows_its_guard t2 →
  each_op_follows_its_guard (t1 ++ t2).
Proof.
  intros H1 H2 i c o Hi Hop.
  apply lookup_app_Some in Hi as [Hi|[Hlen Hi]].
  - destruct (H1 i c o Hi Hop) as (j & -> & Hj). exists j. split; [done|].
    destruct c; try (destruct Hj as (u & t & Hj); exists u, t);
      by apply lookup_app_l_Some.
  - destruct (H2 _ c o Hi Hop) as (j & Hij & Hj).
    exists (length t1 + j). split; [lia|].
    assert (∀ ev, t2 !! j = Some ev → (t1 ++ t2) !! (length t1 + j) = Some ev)
      as Hshift.
    { intros ev Hev. rewrite lookup_app_r by lia.
      by replace (length t1 + j - length t1) with j by lia. }
    destruct c; try (destruct Hj as (u & t & Hj); exists u, t); by apply Hshift.
Qed.

Lemma model_block_each_op_follows_its_guard m seg :
  model_block m seg → each_op_follows_its_guard seg.
Proof.
  intros Hb i c o Hi Hop.
  destruct Hb as [Hsub|Hsub|url to e Hsub|url to e Hsub|url to e Hsub|url to Hsub].
  - by rewrite lookup_nil in Hi.
  - by rewrite lookup_nil in Hi.
  - destruct i as [|i]; simpl in *; [by simplify_eq|].
    by apply logged_lookup_call in Hi.
  - destruct i as [|[|i]]; simpl in *; [by simplify_eq| |].
    + simplify_eq. exists 0. split; [done|]. by exists url, to.
    + by apply logged_lookup_call in Hi.
  - destruct i as [|[|[|i]]]; simpl in *; [by simplify_eq| | |].
    + simplify_eq. exists 0. split; [done|]. by exists url, to.
    + simplify_eq. by exists 1.
    + by apply logged_lookup_call in Hi.
  - destruct i as [|[|[|i]]]; simpl in *; [by simplify_eq| | |done].
    + simplify_eq. exists 0. split; [done|]. by exists url, to.
    + simplify_eq. by exists 1.
Qed.

Lemma for_each_sync_model_each_op_follows_its_guard models env h :
  each_op_follows_its_guard (events (for_each models sync_model) env h).
Proof.
  revert h. induction models as [|m ms IH]; intros h.
  - intros i c o Hi. unfold events in Hi. simpl in Hi. done.
  - unfold events in *. rewrite for_each_cons.
    pose proof (sync_model_block m env h) as Hb. unfold events in Hb.
    destruct (sync_model m env h) as [t1 [[]|e]]; simpl in *.
    + specialize (IH (h ++ t1)).
      destruct (for_each ms sync_model env (h ++ t1)) as [t2 r]; simpl in *.
      apply each_op_follows_its_guard_app; [|done].
      by eapply model_block_each_op_follows_its_guard.
    + by eapply model_block_each_op_follows_its_guard.
Qed.

Lemma probe_then_each_op_follows_its_guard op env h :
  (∀ m, op ≠ EsReindexAll m) →
  each_op_follows_its_guard (probe_then op env h).1.
Proof.
  intros Hop i c o Hi Hc. revert Hi. unfold probe_then, handled.
  destruct (settings env !! "ELASTICSEARCH_URL") as [url|]; simpl;
    [|by rewrite lookup_nil].
  destruct (world env h _) as [|e1]; simpl;
    [destruct (world env _ op) as [|e2]; simpl|];
    try destruct (caught _); simpl; intros Hi;
    destruct i as [|[|[|i]]]; simpl in *; simplify_eq; try done;
    (exists 0; split; [done|]);
    destruct c; try done; try (by eexists _, _); by destruct (Hop model).
Qed.

(** X10. No handler touches the index unguarded.  In every run, each call
    of [do_index], [delete] or [create_index] comes right after a probe
    that returned, and each call of [reindex_all] comes right after a
    [create_index] of the same model that returned. *)
Theorem index_operations_follow_their_guard
    env h sender instance app created_models :
  each_op_follows_its_guard (events (es_save_callback sender instance) env h)
  ∧ each_op_follows_its_guard (events (es_delete_callback sender instance) env h)
  ∧ each_op_follows_its_guard
      (events (es_syncdb_callback app created_models) env h).
Proof.
  assert (each_op_follows_its_guard []) as Hnil.
  { intros i c o Hi. by rewrite lookup_nil in Hi. }
  split_and!; unfold events.
  - rewrite es_save_callback_run.
    destruct (issubclass sender EsIndexable.name); [|done].
    by apply probe_then_each_op_follows_its_guard.
  - rewrite es_delete_callback_run.
    destruct (issubclass sender EsIndexable.name); [|done].
    by apply probe_then_each_op_follows_its_guard.
  - rewrite es_syncdb_callback_run.
    destruct (String.get 2 (django_version env)) as [c|]; [|done].
    destruct (digit_value c) as [n|]; [|done].
    apply for_each_sync_model_each_op_follows_its_guard.
Qed.

Lemma created_indexes_app t1 t2 :
  created_indexes (t1 ++ t2) = created_indexes t1 ++ created_indexes t2.
Proof. apply omap_app. Qed.

Lemma reindexed_app t1 t2 : reindexed (t1 ++ t2) = reindexed t1 ++ reindexed t2.
Proof. apply omap_app. Qed.

Lemma created_indexes_logged e : created_indexes (logged e) = [].
Proof. unfold logged. by destruct (caught e). Qed.

Lemma reindexed_logged e : reindexed (logged e) = [].
Proof. unfold logged. by destruct (caught e). Qed.

(** What one block creates and reindexes. *)
Lemma model_block_created m seg :
  model_block m seg →
  (created_indexes seg = [] ∧ reindexed seg = [])
  ∨ (issubclass m EsIndexable.name = true
     ∧ created_indexes seg = [m]
     ∧ (reindexed seg = [] ∨ reindexed seg = [m])).
Proof.
  intros [Hsub|Hsub|url to e Hsub|url to e Hsub|url to e Hsub|url to Hsub].
  - by left.
  - by left.
  - left. unfold created_indexes, reindexed. simpl.
    split; [apply created_indexes_logged|apply reindexed_logged].
  - right. split; [done|]. unfold created_indexes, reindexed. simpl.
    fold (created_indexes (logged e)). fold (reindexed (logged e)).
    rewrite created_indexes_logged, reindexed_logged. auto.
  - right. split; [done|]. unfold created_indexes, reindexed. simpl.
    fold (created_indexes (logged e)). fold (reindexed (logged e)).
    rewrite created_indexes_logged, reindexed_logged. auto.
  - right. auto.
Qed.

Lemma for_each_sync_model_order models env h :
  created_indexes (events (for_each models sync_model) env h)
    `sublist_of` es_models models
  ∧ reindexed (events (for_each models sync_model) env h)
      `sublist_of` created_indexes (events (for_each models sync_model) env h).
Proof.
  revert h. induction models as [|m ms IH]; intros h; [done|].
  unfold events in *. rewrite for_each_cons, es_models_cons.
  pose proof (model_block_created m _ (sync_model_block m env h)) as Hb.
  unfold events in Hb.
  assert (es_models ms `sublist_of`
            (if issubclass m EsIndexable.name then m :: es_models ms
             else es_models ms)) as Hskip.
  { destruct (issubclass m EsIndexable.name); [by apply sublist_cons|done]. }
  destruct (sync_model m env h) as [t1 [[]|e]]; simpl in *.
  - destruct (IH (h ++ t1)) as [IHc IHr].
    destruct (for_each ms sync_model env (h ++ t1)) as [t2 r]; simpl in *.
    rewrite created_indexes_app, reindexed_app.
    destruct Hb as [[-> ->]|(Hsub & -> & [-> | ->])]; simpl.
    + split; [by etrans|done].
    + rewrite Hsub. split; [by apply sublist_skip|by apply sublist_cons].
    + rewrite Hsub. split; by apply sublist_skip.
  - destruct Hb as [[-> ->]|(Hsub & -> & [-> | ->])]; simpl.
    + split; [apply sublist_nil_l|done].
    + rewrite Hsub. split; [apply sublist_skip, sublist_nil_l|apply sublist_nil_l].
    + rewrite Hsub. split; [apply sublist_skip, sublist_nil_l|done].
Qed.

(** X11. The migration handler creates indexes only for models of the
    selected list that are under [EsIndexable], at most once per
    occurrence in the list and in the order of the list; and it reindexes
    only models whose index it has just created, in the same order. *)
Theorem syncdb_follows_the_order_of_the_list env h app created_models c n :
  String.get 2 (django_version env) = Some c →
  digit_value c = Some n →
  created_indexes (events (es_syncdb_callback app created_models) env h)
    `sublist_of` es_models (selected_models n app created_models)
  ∧ reindexed (events (es_syncdb_callback app created_models) env h)
      `sublist_of`
      created_indexes (events (es_syncdb_callback app created_models) env h).
Proof.
  intros Hc Hn. unfold events.
  rewrite es_syncdb_callback_run, Hc, Hn.
  apply for_each_sync_model_order.
Qed.

Lemma syncdb_follows_the_order_of_the_list_witness :
  created_indexes (events (es_syncdb_callback Sample.blog None) Sample.answering [])
    `sublist_of` es_models (selected_models 8 Sample.blog None)
  ∧ reindexed (events (es_syncdb_callback Sample.blog None) Sample.answering [])
      `sublist_of`
      created_indexes (events (es_syncdb_callback Sample.blog None) Sample.answering []).
Proof.
  apply (syncdb_follows_the_order_of_the_list
           Sample.answering [] Sample.blog None "8"%char 8%Z); reflexivity.
Defined.

(** *** Exceptions that leave a handler *)

Lemma handled_exc tr c e e' :
  (handled (tr ++ [EvCall c (Raised e')]) e').2 = Exc e →
  caught e = false
  ∧ log_errors (handled (tr ++ [EvCall c (Raised e')]) e').1 = log_errors tr
  ∧ last (handled (tr ++ [EvCall c (Raised e')]) e').1 = Some (EvCall c (Raised e)).
Proof.
  unfold handled. destruct (caught e') eqn:Hc; simpl; [done|].
  intros [= <-]. split_and!; [done| |apply last_snoc].
  rewrite log_errors_app. simpl. apply app_nil_r.
Qed.

Lemma probe_then_exc op env h e :
  (probe_then op env h).2 = Exc e →
  caught e = false
  ∧ log_errors (probe_then op env h).1 = []
  ∧ ((probe_then op env h).1 = []
     ∨ ∃ c, last (probe_then op env h).1 = Some (EvCall c (Raised e))).
Proof.
  unfold probe_then.
  destruct (settings env !! "ELASTICSEARCH_URL") as [url|]; simpl.
  2:{ intros [= <-]. split_and!; auto. }
  destruct (world env h _) as [|e1]; simpl.
  - destruct (world env _ op) as [|e2]; simpl; [done|].
    intros He. apply (handled_exc [_]) in He as (? & ? & ?).
    split_and!; [done|done|eauto].
  - intros He. apply (handled_exc []) in He as (? & ? & ?).
    split_and!; [done|done|eauto].
Qed.

Lemma sync_model_exc_last m env h e :
  result (sync_model m) env h = Exc e →
  (events (sync_model m) env h = []
   ∧ settings env !! "ELASTICSEARCH_URL" = None)
  ∨ ∃ c, last (events (sync_model m) env h) = Some (EvCall c (Raised e)).
Proof.
  unfold result, events. rewrite sync_model_run.
  destruct (issubclass m EsIndexable.name); simpl; [|done].
  destruct (settings env !! "ELASTICSEARCH_URL") as [url|]; simpl; [|by left].
  destruct (world env h _) as [|e1]; simpl.
  - destruct (world env _ (EsCreateIndex m)) as [|e2]; simpl.
    + destruct (world env _ (EsReindexAll m)) as [|e3]; simpl; [done|].
      intros He. apply (handled_exc [_; _]) in He as (? & ? & ?). eauto.
    + intros He. apply (handled_exc [_]) in He as (? & ? & ?). eauto.
  - intros He. apply (handled_exc []) in He as (? & ? & ?). eauto.
Qed.

Lemma for_each_sync_model_exc_last models env h e :
  result (for_each models sync_model) env h = Exc e →
  (events (for_each models sync_model) env h = []
   ∧ settings env !! "ELASTICSEARCH_URL" = None)
  ∨ ∃ c, last (events (for_each models sync_model) env h)
         = Some (EvCall c (Raised e)).
Proof.
  revert h. induction models as [|m ms IH]; intros h; [done|].
  unfold result, events in *. rewrite for_each_cons.
  pose proof (sync_model_exc_last m env h e) as Hm.
  pose proof (sync_model_no_url m env h) as Hno.
  unfold result, events in Hm, Hno.
  destruct (sync_model m env h) as [t1 [[]|e1]]; simpl in *; [|done].
  specialize (IH (h ++ t1)).
  destruct (for_each ms sync_model env (h ++ t1)) as [t2 r]; simpl in *.
  intros Hr. destruct (IH Hr) as [[-> Hurl]|[c Hlast]].
  - left. by rewrite (Hno Hurl).
  - right. exists c. by rewrite last_app, Hlast.
Qed.

(** X1. An exception leaves a handler only if the [except] clause does not
    match it, and the handler stops where it was raised: nothing was done
    at all (the URL setting is missing, or the version could not be read),
    or the last event of the run is the call that raised it.  The save and
    delete handlers have logged nothing in that case. *)
Theorem escaping_exceptions_stop_the_handler
    env h sender instance app created_models e :
  (result (es_save_callback sender instance) env h = Exc e →
   caught e = false
   ∧ log_errors (events (es_save_callback sender instance) env h) = []
   ∧ (events (es_save_callback sender instance) env h = []
      ∨ ∃ c, last (events (es_save_callback sender instance) env h)
             = Some (EvCall c (Raised e))))
  ∧ (result (es_delete_callback sender instance) env h = Exc e →
     caught e = false
     ∧ log_errors (events (es_delete_callback sender instance) env h) = []
     ∧ (events (es_delete_callback sender instance) env h = []
        ∨ ∃ c, last (events (es_delete_callback sender instance) env h)
               = Some (EvCall c (Raised e))))
  ∧ (result (es_syncdb_callback app created_models) env h = Exc e →
     caught e = false
     ∧ (events (es_syncdb_callback app created_models) env h = []
        ∨ ∃ c, last (events (es_syncdb_callback app created_models) env h)
               = Some (EvCall c (Raised e)))).
Proof.
  split_and!.
  - unfold result, events. rewrite es_save_callback_run.
    destruct (issubclass sender EsIndexable.name); [|done].
    apply probe_then_exc.
  - unfold result, events. rewrite es_delete_callback_run.
    destruct (issubclass sender EsIndexable.name); [|done].
    apply probe_then_exc.
  - intros He. split; [by apply es_syncdb_callback_exc in He as [? _]|].
    revert He. unfold result, events. rewrite es_syncdb_callback_run.
    destruct (String.get 2 (django_version env)) as [c|]; simpl; [|by left].
    destruct (digit_value c) as [n|]; simpl; [|by left].
    intros [[? _]|?]%for_each_sync_model_exc_last; auto.
Qed.

Lemma escaping_exceptions_stop_the_handler_witness :
  caught Sample.request_exc = false
  ∧ (events (es_syncdb_callback Sample.blog (Some [Sample.Article; Sample.Comment]))
       Sample.flaky [] = []
     ∨ ∃ c, last (events (es_syncdb_callback Sample.blog
                            (Some [Sample.Article; Sample.Comment]))
                    Sample.flaky [])
            = Some (EvCall c (Raised Sample.request_exc))).
Proof.
  destruct (escaping_exceptions_stop_the_handler
              Sample.flaky [] Sample.Article Sample.article Sample.blog
              (Some [Sample.Article; Sample.Comment]) Sample.request_exc)
    as (_ & _ & Hsync).
  apply Hsync. reflexivity.
Defined.

(** *** Falsy values of the switch *)

(** X12. [ELASTICSEARCH_AUTO_INDEX] switches the handlers off not only
    when it is absent: the test of line 110 fails exactly when the setting
    is absent or holds a value that Python takes for false, such as
    [None], [False], [0] or the empty string.  With the switch off,
    sending [post_save], [post_delete] or [post_migrate] reaches no
    receiver of this module and leaves no event. *)
Theorem falsy_auto_index_disconnects_the_handlers st :
  (auto_index st = false
   ↔ st !! "ELASTICSEARCH_AUTO_INDEX" = None
     ∨ ∃ v, st !! "ELASTICSEARCH_AUTO_INDEX" = Some v ∧ truthy v = false)
  ∧ (∀ v, v = PyNone ∨ v = PyBool false ∨ v = PyInt 0 ∨ v = PyStr "" →
          st !! "ELASTICSEARCH_AUTO_INDEX" = Some v →
          auto_index st = false)
  ∧ (auto_index st = false →
     ∀ s env h, lifecycle (signal_of s) →
                send (module_import st) s env h = ([], Ok tt)).
Proof.
  split_and!.
  - unfold auto_index, getattr.
    destruct (st !! "ELASTICSEARCH_AUTO_INDEX") as [v|]; simpl.
    + split; [eauto|]. intros [?|(v' & ? & ?)]; by simplify_eq.
    + split; auto.
  - unfold auto_index, getattr.
    intros v [->|[->|[->| ->]]] ->; done.
  - intros Ha s env h Hsig.
    destruct (module_import_cases st) as [[Ht _]|[_ ->]]; [congruence|].
    unfold send, filter. simpl.
    destruct (decide (class_prepared = signal_of s)) as [Heq|]; [|done].
    rewrite <- Heq in Hsig. by destruct Hsig as [?|[?|?]].
Qed.

Lemma falsy_auto_index_disconnects_the_handlers_witness :
  send (module_import {[ "ELASTICSEARCH_AUTO_INDEX" := PyInt 0 ]})
    (SentPostDelete Sample.Article Sample.article) Sample.up []
  = ([], Ok tt).
Proof.
  destruct (falsy_auto_index_disconnects_the_handlers
              {[ "ELASTICSEARCH_AUTO_INDEX" := PyInt 0 ]}) as (_ & Hfalsy & Hoff).
  apply Hoff.
  - apply (Hfalsy (PyInt 0)); [auto|reflexivity].
  - right. left. reflexivity.
Defined.
